(** * python-api: the two FastAPI handlers of [src/main.py]

  The service registers two routes, [GET /] and [GET /health].  The root
  handler logs one line, asks [os.path.exists] about the Vault secret file,
  asks [socket.gethostname] for the host name and returns a dict; the
  health handler returns a constant dict.

  Handlers are embedded as computations in a state-and-exception monad over
  a [World]: the part of the machine the handlers can observe (file system,
  host name, the state of the [logging] module) together with the
  chronological trace of the effects they perform. *)

From stdpp Require Import gmap strings list.

Local Open Scope Z_scope.
Local Open Scope string_scope.

(** ** Python values, exceptions, outcomes *)

Module Py.

(** The values that occur in the response dicts. *)
Inductive PyVal : Type :=
| PyStr (s : string)
| PyBool (b : bool).

Definition is_str (v : PyVal) : bool :=
  match v with PyStr _ => true | PyBool _ => false end.

Definition is_bool (v : PyVal) : bool :=
  match v with PyBool _ => true | PyStr _ => false end.

(** The exception classes the library calls of [main.py] can raise. *)
Inductive PyExc : Type :=
| OSError (errno : Z)
| ValueError.

Inductive Outcome (A : Type) : Type :=
| Return (a : A)
| Raise (e : PyExc).
Arguments Return {A} a.
Arguments Raise {A} e.

Definition raised {A} (o : Outcome A) : bool :=
  match o with Raise _ => true | Return _ => false end.

End Py.
Export Py.

(** ** The observable machine *)

Module Env.

Inductive Inode : Type :=
| RegularFile (content : string)
| Directory.

Record Stat : Type := mkStat { st_isdir : bool; st_size : Z }.

Definition stat_of (i : Inode) : Stat :=
  match i with
  | RegularFile c => mkStat false (Z.of_nat (String.length c))
  | Directory => mkStat true 4096
  end.

(** What gethostname(2) answers: a name, or -1 with an errno. *)
Inductive Syscall (A : Type) : Type :=
| Done (a : A)
| Errno (e : Z).
Arguments Done {A} a.
Arguments Errno {A} e.

Record LogRecord : Type := mkLogRecord { levelno : Z; msg : string }.

(** Effects in the order in which they happen. *)
Inductive Event : Type :=
| EvLog (r : LogRecord)
| EvStat (path : string)
| EvGetHostName.

(** A handler object of the [logging] module: its level and its filters. *)
Record Handler : Type := mkHandler {
  handler_level : Z;
  handler_filter : LogRecord -> bool
}.

(** The attributes of a logger object that decide what a logging call on it
    does. *)
Record LoggerState : Type := mkLoggerState {
  level : Z;
  disabled : bool;
  propagate : bool;
  handlers : list Handler;
  logger_filter : LogRecord -> bool
}.

(** The state of the [logging] module: the level set with
    [logging.disable], the logger named [__name__] of [main.py], the
    ancestors of that logger that exist as logger objects (nearest first)
    and the root logger.  A logger nobody has asked for yet is described by
    the state [getLogger] would create it in. *)
Record Logging : Type := mkLogging {
  manager_disable : Z;
  module_logger : LoggerState;
  parents : list LoggerState;
  root_logger : LoggerState
}.

(** [fs] maps each path that stat(2) can resolve to the inode it reaches;
    [hostname] is what gethostname(2) answers on this machine; [logging] is
    the state of the [logging] module; [trace] is the history of effects,
    oldest first. *)
Record World : Type := mkWorld {
  fs : gmap string Inode;
  hostname : Syscall string;
  logging : Logging;
  trace : list Event
}.

Definition record_event (ev : Event) (w : World) : World :=
  mkWorld (fs w) (hostname w) (logging w) (trace w ++ [ev]).

Definition is_log (ev : Event) : bool :=
  match ev with EvLog _ => true | _ => false end.

Definition ENOENT : Z := 2.

End Env.
Export Env.

(** ** The effect monad: state passing with Python exceptions *)

Module Eff.

Definition M (A : Type) : Type := World -> Outcome A * World.

Definition ret {A} (a : A) : M A := fun w => (Return a, w).

Definition raise {A} (e : PyExc) : M A := fun w => (Raise e, w).

Definition bind {A B} (m : M A) (k : A -> M B) : M B :=
  fun w =>
    match m w with
    | (Return a, w') => k a w'
    | (Raise e, w') => (Raise e, w')
    end.

(** [try: m except e: h e] *)
Definition try_except {A} (m : M A) (h : PyExc -> M A) : M A :=
  fun w =>
    match m w with
    | (Return a, w') => (Return a, w')
    | (Raise e, w') => h e w'
    end.

Definition emit (ev : Event) : M unit :=
  fun w => (Return tt, record_event ev w).

Fixpoint emit_all (evs : list Event) : M unit :=
  match evs with
  | [] => ret tt
  | ev :: rest => bind (emit ev) (fun _ => emit_all rest)
  end.

Declare Scope eff_scope.
Delimit Scope eff_scope with eff.
Notation "x ← y ; z" := (bind y (fun x => z))
  (at level 20, y at level 100, z at level 200, only parsing) : eff_scope.
Notation "y ;; z" := (bind y (fun _ => z))
  (at level 100, z at level 200, only parsing, right associativity) : eff_scope.

End Eff.
Export Eff.
Local Open Scope eff_scope.

(** ** The library calls used by [main.py]

    [logging], [os] and [socket] belong to the Python standard library;
    each call is modelled by what CPython does for it. *)

Module Lib.

(** *** logging *)

Definition NOTSET : Z := 0.
Definition DEBUG : Z := 10.
Definition INFO : Z := 20.
Definition WARNING : Z := 30.

Definition levelname (lvl : Z) : string :=
  if (lvl =? 10)%Z then "DEBUG"
  else if (lvl =? 20)%Z then "INFO"
  else if (lvl =? 30)%Z then "WARNING"
  else if (lvl =? 40)%Z then "ERROR"
  else if (lvl =? 50)%Z then "CRITICAL"
  else "NOTSET".

(** A logger the program can hold: the root logger or the logger named
    [__name__]. *)
Inductive LoggerRef : Type := RootLogger | ModuleLogger.

Definition this_logger (L : Logging) (l : LoggerRef) : LoggerState :=
  match l with
  | RootLogger => root_logger L
  | ModuleLogger => module_logger L
  end.

(** The logger followed by its ancestors, up to the root. *)
Definition logger_chain (L : Logging) (l : LoggerRef) : list LoggerState :=
  match l with
  | RootLogger => [root_logger L]
  | ModuleLogger => module_logger L :: (parents L ++ [root_logger L])%list
  end.

(** [Logger.getEffectiveLevel]: the first level other than [NOTSET] on the
    way up. *)
Fixpoint first_level (chain : list LoggerState) : Z :=
  match chain with
  | [] => NOTSET
  | l :: rest => if (level l =? NOTSET)%Z then first_level rest else level l
  end.

Definition getEffectiveLevel (L : Logging) (l : LoggerRef) : Z :=
  first_level (logger_chain L l).

(** [Logger.isEnabledFor] *)
Definition isEnabledFor (L : Logging) (l : LoggerRef) (lvl : Z) : bool :=
  if disabled (this_logger L l) then false
  else if (lvl <=? manager_disable L)%Z then false
  else (getEffectiveLevel L l <=? lvl)%Z.

(** The handlers [Logger.callHandlers] visits: those of the logger, then
    those of each ancestor as long as [propagate] is set. *)
Fixpoint chain_handlers (chain : list LoggerState) : list Handler :=
  match chain with
  | [] => []
  | l :: rest =>
      (handlers l ++ if propagate l then chain_handlers rest else [])%list
  end.

(** A visited handler writes the record when the record reaches the
    handler's level and passes its filters. *)
Definition accepts (h : Handler) (r : LogRecord) : bool :=
  (handler_level h <=? levelno r)%Z && handler_filter h r.

(** [logging.lastResort], used when no handler was visited at all. *)
Definition lastResort : Handler := mkHandler WARNING (fun _ => true).

(** [Logger.callHandlers]: one line per handler that writes the record. *)
Definition callHandlers (L : Logging) (l : LoggerRef) (r : LogRecord) : M unit :=
  let found := chain_handlers (logger_chain L l) in
  let visited := match found with [] => [lastResort] | _ :: _ => found end in
  emit_all (List.map (fun _ => EvLog r)
                     (List.filter (fun h => accepts h r) visited)).

(** [Logger.handle] *)
Definition handle (L : Logging) (l : LoggerRef) (r : LogRecord) : M unit :=
  if disabled (this_logger L l) then ret tt
  else if logger_filter (this_logger L l) r then callHandlers L l r
  else ret tt.

(** [Logger.log]: nothing happens unless the logger is enabled for the
    level.  The [format=] of the handler only decides how a record is
    rendered as text; records are kept here as the handler receives
    them. *)
Definition logger_log (l : LoggerRef) (lvl : Z) (m : string) : M unit :=
  fun w =>
    if isEnabledFor (logging w) l lvl
    then handle (logging w) l (mkLogRecord lvl m) w
    else (Return tt, w).

Definition logger_info (l : LoggerRef) (m : string) : M unit :=
  logger_log l INFO m.

(** The handler [basicConfig] installs: a [StreamHandler] at level
    [NOTSET] without filters. *)
Definition StreamHandler : Handler := mkHandler NOTSET (fun _ => true).

(** [logging.basicConfig(level=lvl, ...)]: does something only when the
    root logger has no handler yet; then it adds the stream handler and
    sets the root level. *)
Definition basicConfig (lvl : Z) (L : Logging) : Logging :=
  match handlers (root_logger L) with
  | [] =>
      mkLogging (manager_disable L) (module_logger L) (parents L)
        (mkLoggerState lvl
           (disabled (root_logger L)) (propagate (root_logger L))
           [StreamHandler] (logger_filter (root_logger L)))
  | _ :: _ => L
  end.

(** *** os *)

Fixpoint has_nul (s : string) : bool :=
  match s with
  | EmptyString => false
  | String c s' => if Ascii.eqb c Ascii.zero then true else has_nul s'
  end.

(** [os.stat]: a path with an embedded NUL is rejected with [ValueError]
    before any system call; a missing path is [OSError] with [ENOENT]. *)
Definition os_stat (path : string) : M Stat :=
  if has_nul path then raise ValueError
  else
    emit (EvStat path) ;;
    fun w =>
      match fs w !! path with
      | Some i => (Return (stat_of i), w)
      | None => (Raise (OSError ENOENT), w)
      end.

(** [os.path.exists]:
<<
    try: os.stat(path)
    except (OSError, ValueError): return False
    return True
>> *)
Definition os_path_exists (path : string) : M bool :=
  try_except
    (os_stat path ;; ret true)
    (fun e =>
       match e with
       | OSError _ => ret false
       | ValueError => ret false
       end).

(** *** socket *)

Definition socket_gethostname : M string :=
  emit EvGetHostName ;;
  fun w =>
    match hostname w with
    | Done h => (Return h, w)
    | Errno e => (Raise (OSError e), w)
    end.

End Lib.
Export Lib.

(** ** [main.py] *)

Module Main.

(** Module level, run once at import:
    [logging.basicConfig(level=logging.INFO, format=...)]. *)
Definition configure_logging (L : Logging) : Logging :=
  basicConfig INFO L.

(** [logger = logging.getLogger(__name__)] *)
Definition logger : LoggerRef := ModuleLogger.

Definition VAULT_CONFIG : string := "/vault/secrets/config".

(** [def root()] *)
Definition root : M (gmap string PyVal) :=
  logger_info logger "Root endpoint called" ;;
  vault_injected ← os_path_exists VAULT_CONFIG ;
  host ← socket_gethostname ;
  ret (<["vault_injected" := PyBool vault_injected]>
       (<["host" := PyStr host]>
        (<["message" := PyStr "Hello from Python!"]>
         (<["service" := PyStr "python-api"]> ∅)))).

(** [def health()] *)
Definition health : M (gmap string PyVal) :=
  ret (<["status" := PyStr "healthy"]> ∅).

End Main.
Export Main.

(** ** The application object: routing table and response construction

    [app = FastAPI(...)] with the two [@app.get] decorators.  Routing and
    the conversion of an endpoint's outcome into an HTTP response are the
    framework's. *)

Module App.

Inductive Method : Type := GET | HEAD | POST | PUT | PATCH | DELETE | OPTIONS.

#[global] Instance Method_eq_dec : EqDecision Method.
Proof. solve_decision. Defined.

Record Request : Type := mkRequest {
  method : Method;
  path : string;
  query : string;
  headers : list (string * string)
}.

Inductive Body : Type :=
| JSONBody (obj : gmap string PyVal)
| PlainText (s : string).

Record Response : Type := mkResponse { status_code : Z; body : Body }.

Record Route : Type := mkRoute {
  route_method : Method;
  route_path : string;
  endpoint : M (gmap string PyVal)
}.

(** [@app.get("/")] and [@app.get("/health")], in registration order. *)
Definition routes : list Route :=
  [mkRoute GET "/" root; mkRoute GET "/health" health].

Definition route_matches (req : Request) (r : Route) : bool :=
  bool_decide (route_method r = method req) && String.eqb (route_path r) (path req).

Definition find_route (req : Request) : option Route :=
  List.find (route_matches req) routes.

(** A dict returned by an endpoint becomes a 200 JSON response; an exception
    that escapes the endpoint becomes the framework's 500 response. *)
Definition respond (o : Outcome (gmap string PyVal)) : Response :=
  match o with
  | Return d => mkResponse 200 (JSONBody d)
  | Raise _ => mkResponse 500 (PlainText "Internal Server Error")
  end.

(** Serving one request.  [None]: none of the two routes of [main.py]
    matches, the request is left to the framework's own routes. *)
Definition serve (req : Request) : World -> option Response * World :=
  fun w =>
    match find_route req with
    | Some r => let (o, w') := endpoint r w in (Some (respond o), w')
    | None => (None, w)
    end.

End App.
Export App.

(** ** Requests served one after another *)

Module Server.

(** The application answering a sequence of requests in order, each one in
    the world the previous one left. *)
Fixpoint serve_all (reqs : list Request) (w : World)
  : list (option Response) * World :=
  match reqs with
  | [] => ([], w)
  | req :: rest =>
      let (r, w1) := serve req w in
      let (rs, w2) := serve_all rest w1 in
      (r :: rs, w2)
  end.

End Server.
Export Server.

(** ** [test_main.py] *)

Module TestMain.

#[global] Instance PyVal_eq_dec : EqDecision PyVal.
Proof. solve_decision. Defined.

(** [root] looks the name [os.path.exists] up when it runs, which is what
    lets [unittest.mock.patch] replace it: [root_with f] is the body of
    [root] with that name bound to [f]. *)
Definition root_with (exists_fn : string -> M bool) : M (gmap string PyVal) :=
  logger_info logger "Root endpoint called" ;;
  vault_injected ← exists_fn VAULT_CONFIG ;
  host ← socket_gethostname ;
  ret (<["vault_injected" := PyBool vault_injected]>
       (<["host" := PyStr host]>
        (<["message" := PyStr "Hello from Python!"]>
         (<["service" := PyStr "python-api"]> ∅)))).

Definition routes_with (exists_fn : string -> M bool) : list Route :=
  [mkRoute GET "/" (root_with exists_fn); mkRoute GET "/health" health].

Inductive TestError : Type :=
| AppError (e : PyExc)
| KeyError (k : string)
| JSONDecodeError
| NoRoute.

Inductive Verdict : Type :=
| Passed
| Failed
| Errored (e : TestError).

(** [client.get(p)] with [client = TestClient(app)]: the application runs
    in-process and an exception that leaves the endpoint is raised again
    in the test.  [None]: the path is none of the routes of [main.py]. *)
Definition client_get (exists_fn : string -> M bool) (p : string)
  : World -> option (Outcome Response) * World :=
  fun w =>
    match List.find (route_matches (mkRequest GET p EmptyString []))
                    (routes_with exists_fn) with
    | Some r =>
        let (o, w') := endpoint r w in
        (Some match o with
              | Return _ => Return (respond o)
              | Raise e => Raise e
              end, w')
    | None => (None, w)
    end.

(** [resp = client.get(p)] followed by the rest of the test. *)
Definition request (exists_fn : string -> M bool) (p : string)
    (k : Response -> Verdict) : World -> Verdict * World :=
  fun w =>
    match client_get exists_fn p w with
    | (Some (Return resp), w') => (k resp, w')
    | (Some (Raise e), w') => (Errored (AppError e), w')
    | (None, w') => (Errored NoRoute, w')
    end.

(** [assert b] *)
Definition check (b : bool) (k : Verdict) : Verdict :=
  if b then k else Failed.

(** [body = resp.json()] *)
Definition json_body (resp : Response)
    (k : gmap string PyVal -> Verdict) : Verdict :=
  match body resp with
  | JSONBody d => k d
  | PlainText _ => Errored JSONDecodeError
  end.

(** [body[key]] *)
Definition item (d : gmap string PyVal) (key : string)
    (k : PyVal -> Verdict) : Verdict :=
  match d !! key with
  | Some v => k v
  | None => Errored (KeyError key)
  end.

(** [key in body] *)
Definition contains (d : gmap string PyVal) (key : string) : bool :=
  bool_decide (is_Some (d !! key)).

Definition test_root_returns_service_info : World -> Verdict * World :=
  request os_path_exists "/" (fun resp =>
    check (status_code resp =? 200)%Z
    (json_body resp (fun body =>
     item body "service" (fun v =>
     check (bool_decide (v = PyStr "python-api"))
     (item body "message" (fun v =>
      check (bool_decide (v = PyStr "Hello from Python!"))
      (check (contains body "host")
      (check (contains body "vault_injected")
       Passed)))))))).

Definition test_root_vault_injected_false_when_missing
  : World -> Verdict * World :=
  request os_path_exists "/" (fun resp =>
    json_body resp (fun body =>
    item body "vault_injected" (fun v =>
    check (bool_decide (v = PyBool false))
    Passed))).

(** [secret_file.write_text(content)] in the directory the [tmp_path]
    fixture has created. *)
Definition write_text (path content : string) (w : World) : World :=
  mkWorld (<[path := RegularFile content]> (fs w)) (hostname w) (logging w)
          (trace w).

(** [lambda p: p == "/vault/secrets/config" or os.path.exists(p)]; [inner]
    is what the name [os.path.exists] is bound to when the second operand
    is evaluated (inside the [with patch] block, the mock itself). *)
Definition vault_side_effect (inner : string -> M bool) (p : string) : M bool :=
  if String.eqb p "/vault/secrets/config" then ret true else inner p.

Definition test_root_vault_injected_true_when_present
    (inner : string -> M bool) (tmp_path : string) : World -> Verdict * World :=
  fun w =>
    let secret_file := tmp_path ++ "/config" in
    let w1 := write_text secret_file "key=value" w in
    request (vault_side_effect inner) "/" (fun resp =>
      json_body resp (fun body =>
      item body "vault_injected" (fun v =>
      check (bool_decide (v = PyBool true))
      Passed))) w1.

Definition test_health_endpoint : World -> Verdict * World :=
  request os_path_exists "/health" (fun resp =>
    check (status_code resp =? 200)%Z
    (json_body resp (fun body =>
     check (bool_decide (body = <["status" := PyStr "healthy"]> ∅))
     Passed))).

(** The four tests in the order of the file, each run in the world the
    previous one left. *)
Definition run_suite (inner : string -> M bool) (tmp_path : string)
  : World -> list Verdict * World :=
  fun w =>
    let (v1, w1) := test_root_returns_service_info w in
    let (v2, w2) := test_root_vault_injected_false_when_missing w1 in
    let (v3, w3) := test_root_vault_injected_true_when_present inner tmp_path w2 in
    let (v4, w4) := test_health_endpoint w3 in
    ([v1; v2; v3; v4], w4).

End TestMain.
Export TestMain.

(** ** Specification vocabulary *)

(** The path is present in the file system. *)
Definition present (w : World) (p : string) : bool :=
  bool_decide (is_Some (fs w !! p)).

(** Two worlds offer the handlers the same external state: the same entry
    (or absence) at the Vault path and the same answer to gethostname. *)
Definition same_external (w1 w2 : World) : Prop :=
  fs w1 !! VAULT_CONFIG = fs w2 !! VAULT_CONFIG /\ hostname w1 = hostname w2.

(** The events a computation appended to the trace. *)
Definition emitted (w w' : World) (evs : list Event) : Prop :=
  trace w' = (trace w ++ evs)%list.

Definition root_log : LogRecord := mkLogRecord INFO "Root endpoint called".

(** The lines a logging call on [l] with the record [r] writes when the
    [logging] module is in state [L]: what the call appends to an empty
    trace. *)
Definition logged (L : Logging) (l : LoggerRef) (r : LogRecord) : list Event :=
  trace (logger_log l (levelno r) (msg r) (mkWorld ∅ (Errno 0) L [])).2.

(** The events of one run of [root]. *)
Definition root_events (L : Logging) : list Event :=
  (logged L logger root_log ++ [EvStat VAULT_CONFIG; EvGetHostName])%list.

(** The world a run of [root] leaves behind. *)
Definition root_world (w : World) : World :=
  mkWorld (fs w) (hostname w) (logging w) (trace w ++ root_events (logging w)).

(** The world a run of [root] leaves behind when [os.path.exists] is
    patched to answer by itself: the stat is missing. *)
Definition patched_world (w : World) : World :=
  mkWorld (fs w) (hostname w) (logging w)
          (trace w ++ logged (logging w) logger root_log ++ [EvGetHostName]).

(** A logger as [getLogger] creates it. *)
Definition fresh_logger : LoggerState :=
  mkLoggerState NOTSET false true [] (fun _ => true).

(** The [logging] module as the interpreter starts with it: nothing
    disabled, the root logger at [WARNING] without handlers. *)
Definition fresh_logging : Logging :=
  mkLogging 0 fresh_logger []
    (mkLoggerState WARNING false true [] (fun _ => true)).

(** The logging configuration of [main.py] is in effect: when the module
    was imported the root logger had no handler, so that [basicConfig]
    acted, the module logger and its ancestors are as [getLogger] creates
    them, and [logging.disable] does not cover [INFO]. *)
Definition main_logging_in_effect (L : Logging) : Prop :=
  exists L0 : Logging,
    L = configure_logging L0
    /\ handlers (root_logger L0) = []
    /\ module_logger L0 = fresh_logger
    /\ Forall (fun p => p = fresh_logger) (parents L0)
    /\ (manager_disable L0 < INFO)%Z.

(** The events other than log lines. *)
Definition calls (evs : list Event) : list Event :=
  List.filter (fun ev => negb (is_log ev)) evs.

(** The request is a GET for one of the two paths of [main.py]. *)
Definition routed (req : Request) : Prop :=
  method req = GET /\ (path req = "/" \/ path req = "/health").

Definition root_keys : gset string :=
  {["service"; "message"; "host"; "vault_injected"]}.

(** The response shape promised for [GET /]. *)
Definition root_ok_response (r : Response) : Prop :=
  status_code r = 200%Z
  /\ exists d : gmap string PyVal,
       body r = JSONBody d
       /\ root_keys ⊆ dom d
       /\ d !! "service" = Some (PyStr "python-api")
       /\ d !! "message" = Some (PyStr "Hello from Python!").

Definition count_logs (evs : list Event) : nat :=
  length (filter (fun ev => is_log ev = true) evs).

(** The request is one that [@app.get("/")] routes to [root]. *)
Definition hits_root (req : Request) : bool :=
  bool_decide (method req = GET) && String.eqb (path req) "/".

(** The request is one that [@app.get("/health")] routes to [health]. *)
Definition hits_health (req : Request) : bool :=
  bool_decide (method req = GET) && String.eqb (path req) "/health".

(** The events a request appends to the trace. *)
Definition events_of (L : Logging) (req : Request) : list Event :=
  if hits_root req then root_events L else [].

(** Sample logging states: [main.py] imported by a fresh interpreter, and
    imported when the root logger already carries a handler (as under a
    test runner that captures logs). *)
Definition production_logging : Logging := configure_logging fresh_logging.

Definition captured_logging : Logging :=
  configure_logging
    (mkLogging 0 fresh_logger []
       (mkLoggerState WARNING false true [mkHandler NOTSET (fun _ => true)]
          (fun _ => true))).

(** Sample worlds. *)
Definition w_plain : World :=
  mkWorld ∅ (Done "python-api-7d9f") production_logging [].

Definition w_vault : World :=
  mkWorld (<[VAULT_CONFIG := RegularFile "key=value"]> ∅)
          (Done "python-api-7d9f") production_logging [].

Definition w_nohost : World := mkWorld ∅ (Errno 14) production_logging [].

Definition w_anon : World := mkWorld ∅ (Done EmptyString) production_logging [].

Definition w_captured : World :=
  mkWorld ∅ (Done "python-api-7d9f") captured_logging [].

Definition get_root : Request := mkRequest GET "/" EmptyString [].

Definition get_health : Request := mkRequest GET "/health" EmptyString [].

(** ** Running the library calls *)

Lemma world_eta (w : World) :
  mkWorld (fs w) (hostname w) (logging w) (trace w ++ []) = w.
Proof. destruct w; simpl. now rewrite app_nil_r. Qed.

Lemma emit_all_run (evs : list Event) (w : World) :
  emit_all evs w =
    (Return tt, mkWorld (fs w) (hostname w) (logging w) (trace w ++ evs)).
Proof.
  revert w. induction evs as [ | ev rest IH]; intros w; simpl.
  - unfold ret. now rewrite world_eta.
  - unfold bind, emit. rewrite IH. simpl. now rewrite <- app_assoc.
Qed.

Section LibraryRuns.

Variable w : World.

Lemma logger_log_run (l : LoggerRef) (lvl : Z) (m : string) :
  logger_log l lvl m w =
    (Return tt,
     mkWorld (fs w) (hostname w) (logging w)
             (trace w ++ logged (logging w) l (mkLogRecord lvl m))).
Proof.
  unfold logged, logger_log. simpl.
  destruct (isEnabledFor (logging w) l lvl); [ | simpl; now rewrite world_eta].
  unfold handle.
  destruct (disabled (this_logger (logging w) l));
    [simpl; unfold ret; now rewrite world_eta | ].
  destruct (logger_filter (this_logger (logging w) l) (mkLogRecord lvl m));
    [ | simpl; unfold ret; now rewrite world_eta].
  unfold callHandlers. rewrite !emit_all_run. reflexivity.
Qed.

Lemma logger_info_run (m : string) :
  logger_info logger m w =
    (Return tt,
     mkWorld (fs w) (hostname w) (logging w)
             (trace w ++ logged (logging w) logger (mkLogRecord INFO m))).
Proof. apply logger_log_run. Qed.

Lemma os_stat_run (p : string) :
  has_nul p = false ->
  os_stat p w =
    (match fs w !! p with
     | Some i => Return (stat_of i)
     | None => Raise (OSError ENOENT)
     end, record_event (EvStat p) w).
Proof.
  intros Hnul. unfold os_stat. rewrite Hnul.
  unfold bind, emit. simpl. now destruct (fs w !! p).
Qed.

Lemma os_path_exists_run (p : string) :
  has_nul p = false ->
  os_path_exists p w = (Return (present w p), record_event (EvStat p) w).
Proof.
  intros Hnul. unfold os_path_exists, try_except, bind at 1.
  rewrite (os_stat_run p Hnul). unfold present.
  destruct (fs w !! p) as [i|]; reflexivity.
Qed.

Lemma os_path_exists_nul (p : string) :
  has_nul p = true -> os_path_exists p w = (Return false, w).
Proof.
  intros Hnul. unfold os_path_exists, try_except, bind, os_stat.
  now rewrite Hnul.
Qed.

Lemma os_path_exists_returns (p : string) :
  exists b w', os_path_exists p w = (Return b, w') /\ fs w' = fs w /\ hostname w' = hostname w.
Proof.
  destruct (has_nul p) eqn:E.
  - exists false, w. now rewrite os_path_exists_nul.
  - exists (present w p), (record_event (EvStat p) w).
    now rewrite os_path_exists_run.
Qed.

Lemma socket_gethostname_run :
  socket_gethostname w =
    (match hostname w with
     | Done h => Return h
     | Errno e => Raise (OSError e)
     end, record_event EvGetHostName w).
Proof.
  unfold socket_gethostname, bind, emit. simpl. now destruct (hostname w).
Qed.

End LibraryRuns.

(** ** Running the handlers *)

Lemma vault_path_clean : has_nul VAULT_CONFIG = false.
Proof. reflexivity. Qed.

Lemma root_run (w : World) :
  root w =
    (match hostname w with
     | Done h =>
         Return (<["vault_injected" := PyBool (present w VAULT_CONFIG)]>
                 (<["host" := PyStr h]>
                  (<["message" := PyStr "Hello from Python!"]>
                   (<["service" := PyStr "python-api"]> ∅))))
     | Errno e => Raise (OSError e)
     end, root_world w).
Proof.
  unfold root. unfold bind at 1. rewrite logger_info_run.
  unfold bind at 1. rewrite (os_path_exists_run _ _ vault_path_clean).
  unfold bind at 1. rewrite socket_gethostname_run.
  unfold root_world, root_events, record_event, present; simpl.
  rewrite <- !app_assoc; simpl.
  now destruct (hostname w).
Qed.

Lemma first_level_fresh (ps rest : list LoggerState) :
  Forall (fun p => p = fresh_logger) ps ->
  first_level (ps ++ rest) = first_level rest.
Proof.
  induction 1 as [ | p ps' Hp _ IH]; [reflexivity | ].
  subst p. simpl. exact IH.
Qed.

Lemma chain_handlers_fresh (ps rest : list LoggerState) :
  Forall (fun p => p = fresh_logger) ps ->
  chain_handlers (ps ++ rest) = chain_handlers rest.
Proof.
  induction 1 as [ | p ps' Hp _ IH]; [reflexivity | ].
  subst p. simpl. exact IH.
Qed.

(** With the configuration of [main.py] in effect, an [INFO] call on the
    module logger writes exactly one line. *)
Lemma logged_in_effect (L : Logging) (m : string) :
  main_logging_in_effect L ->
  logged L logger (mkLogRecord INFO m) = [EvLog (mkLogRecord INFO m)].
Proof.
  intros (L0 & -> & Hroot & Hmod & Hpar & Hdis).
  unfold logged, logger_log, configure_logging, basicConfig.
  rewrite Hroot. simpl.
  unfold isEnabledFor, getEffectiveLevel, handle, callHandlers. simpl.
  rewrite Hmod. simpl.
  replace (INFO <=? manager_disable L0)%Z with false
    by (symmetry; apply Z.leb_gt; exact Hdis).
  rewrite (first_level_fresh _ _ Hpar), (chain_handlers_fresh _ _ Hpar).
  simpl. destruct (propagate (root_logger L0)); reflexivity.
Qed.

Lemma logging_root_world (w : World) : logging (root_world w) = logging w.
Proof. reflexivity. Qed.


Lemma health_run (w : World) :
  health w = (Return (<["status" := PyStr "healthy"]> ∅), w).
Proof. reflexivity. Qed.

Lemma find_route_root (req : Request) :
  method req = GET -> path req = "/" -> find_route req = Some (mkRoute GET "/" root).
Proof.
  destruct req as [m p q hs]; simpl; intros -> ->. reflexivity.
Qed.

Lemma find_route_health (req : Request) :
  method req = GET -> path req = "/health" ->
  find_route req = Some (mkRoute GET "/health" health).
Proof.
  destruct req as [m p q hs]; simpl; intros -> ->. reflexivity.
Qed.

Lemma serve_root (req : Request) (w : World) :
  method req = GET -> path req = "/" ->
  serve req w = (Some (respond (root w).1), (root w).2).
Proof.
  intros Hm Hp. unfold serve. rewrite (find_route_root req Hm Hp). simpl.
  now destruct (root w).
Qed.

Lemma serve_health (req : Request) (w : World) :
  method req = GET -> path req = "/health" ->
  serve req w = (Some (respond (health w).1), (health w).2).
Proof.
  intros Hm Hp. unfold serve. now rewrite (find_route_health req Hm Hp).
Qed.

Lemma root_returns (w : World) (h : string) :
  hostname w = Done h ->
  root w =
    (Return (<["vault_injected" := PyBool (present w VAULT_CONFIG)]>
             (<["host" := PyStr h]>
              (<["message" := PyStr "Hello from Python!"]>
               (<["service" := PyStr "python-api"]> ∅)))), root_world w).
Proof. intros Hh. rewrite root_run, Hh. reflexivity. Qed.

Lemma root_raises (w : World) (n : Z) :
  hostname w = Errno n -> root w = (Raise (OSError n), root_world w).
Proof. intros Hh. rewrite root_run, Hh. reflexivity. Qed.

Lemma present_same (w1 w2 : World) (p : string) :
  fs w1 !! p = fs w2 !! p -> present w1 p = present w2 p.
Proof. unfold present. now intros ->. Qed.

Lemma present_None (w : World) (p : string) :
  fs w !! p = None -> present w p = false.
Proof. unfold present. now intros ->. Qed.

Lemma present_Some (w : World) (p : string) :
  is_Some (fs w !! p) -> present w p = true.
Proof. unfold present. intros [i ->]. reflexivity. Qed.

Create HintDb handlers.
Create Rewrite HintDb handler_runs.
#[local] Hint Rewrite root_run health_run : handler_runs.
#[local] Hint Resolve present_same present_None present_Some : handlers.

Ltac run_handlers := autorewrite with handler_runs; simpl.

(** ** Properties of the health endpoint *)

(** C2. Every GET request to /health is answered with status 200 and a body
    that is exactly the JSON object with the single key status bound to
    the string healthy. *)
Theorem health_response_exact (req : Request) (w : World) :
  method req = GET -> path req = "/health" ->
  exists d : gmap string PyVal,
    (serve req w).1 = Some (mkResponse 200 (JSONBody d))
    /\ d = {["status" := PyStr "healthy"]}
    /\ dom d = {["status"]}
    /\ forall k, k <> "status" -> d !! k = None.
Proof.
  intros Hm Hp. rewrite (serve_health req w Hm Hp). run_handlers.
  exists (<["status" := PyStr "healthy"]> ∅).
  split; [reflexivity | split; [ | split]].
  - apply insert_empty.
  - rewrite dom_insert_L, dom_empty_L. set_solver.
  - intros k Hk. rewrite lookup_insert_ne by congruence. apply lookup_empty.
Qed.

Lemma health_response_exact_witness :
  exists d : gmap string PyVal,
    (serve get_health w_nohost).1 = Some (mkResponse 200 (JSONBody d))
    /\ d = {["status" := PyStr "healthy"]}
    /\ dom d = {["status"]}
    /\ forall k, k <> "status" -> d !! k = None.
Proof. apply (health_response_exact get_health w_nohost); reflexivity. Defined.

(** C5. The health handler has no side effect and reads no external state:
    for any two worlds, with whatever file systems and host names, a GET
    request to /health gets the same response, no effect is performed and
    the world is handed back unchanged. *)
Theorem health_pure (req : Request) (w1 w2 : World) :
  method req = GET -> path req = "/health" ->
  is_Some (serve req w1).1
  /\ (serve req w1).1 = (serve req w2).1
  /\ (serve req w1).2 = w1
  /\ (serve req w2).2 = w2
  /\ emitted w1 (serve req w1).2 [].
Proof.
  intros Hm Hp. rewrite !(serve_health req _ Hm Hp). run_handlers.
  repeat split; eauto. unfold emitted. now rewrite app_nil_r.
Qed.

Lemma health_pure_witness :
  is_Some (serve get_health w_vault).1
  /\ (serve get_health w_vault).1 = (serve get_health w_nohost).1
  /\ (serve get_health w_vault).2 = w_vault
  /\ (serve get_health w_nohost).2 = w_nohost
  /\ emitted w_vault (serve get_health w_vault).2 [].
Proof. apply (health_pure get_health w_vault w_nohost); reflexivity. Defined.

(** ** Properties of the root endpoint *)

Lemma root_dict_dom (h : string) (b : bool) :
  dom (<["vault_injected" := PyBool b]>
       (<["host" := PyStr h]>
        (<["message" := PyStr "Hello from Python!"]>
         (<["service" := PyStr "python-api"]> (∅ : gmap string PyVal)))))
  = root_keys.
Proof.
  rewrite !dom_insert_L, dom_empty_L. unfold root_keys. set_solver.
Qed.

Lemma root_answers (w : World) (h : string) :
  hostname w = Done h ->
  exists (d : gmap string PyVal) (w' : World), root w = (Return d, w').
Proof. intros Hh. rewrite (root_returns w h Hh). eauto. Qed.

Lemma root_return_inv (w w' : World) (d : gmap string PyVal) :
  root w = (Return d, w') ->
  exists h : string,
    hostname w = Done h
    /\ w' = root_world w
    /\ d = <["vault_injected" := PyBool (present w VAULT_CONFIG)]>
           (<["host" := PyStr h]>
            (<["message" := PyStr "Hello from Python!"]>
             (<["service" := PyStr "python-api"]> ∅))).
Proof.
  rewrite root_run. destruct (hostname w) as [h | n]; intros H.
  - injection H as <- <-. eauto.
  - discriminate H.
Qed.

(** C1. The root handler answers whenever the host name resolves, and in
    every answer the vault_injected field is the boolean returned by the
    existence check of /vault/secrets/config: false when the path is
    absent, true when it is present.  Only presence is consulted: a world
    that differs in what is stored at the path, but not in whether
    something is, gets the same answer. *)
Theorem root_vault_injected_is_existence (w : World) :
  (forall h, hostname w = Done h ->
     exists (d : gmap string PyVal) (w' : World), root w = (Return d, w'))
  /\ forall (d : gmap string PyVal) (w' : World),
       root w = (Return d, w') ->
       exists b : bool,
         (os_path_exists VAULT_CONFIG w).1 = Return b
         /\ d !! "vault_injected" = Some (PyBool b)
         /\ (fs w !! VAULT_CONFIG = None -> b = false)
         /\ (is_Some (fs w !! VAULT_CONFIG) -> b = true)
         /\ forall w2 : World,
              hostname w2 = hostname w ->
              (is_Some (fs w2 !! VAULT_CONFIG) <-> is_Some (fs w !! VAULT_CONFIG)) ->
              (root w2).1 = Return d.
Proof.
  split; [apply root_answers | ].
  intros d w' Hrun.
  destruct (root_return_inv w w' d Hrun) as (h & Hh & _ & ->).
  exists (present w VAULT_CONFIG).
  split; [now rewrite (os_path_exists_run w _ vault_path_clean) | ].
  split; [apply lookup_insert_eq | ].
  split; [auto with handlers | ].
  split; [auto with handlers | ].
  intros w2 Hh2 Hsame. rewrite Hh in Hh2. rewrite (root_returns w2 h Hh2). simpl.
  replace (present w2 VAULT_CONFIG) with (present w VAULT_CONFIG); [reflexivity | ].
  unfold present. apply bool_decide_ext. symmetry. exact Hsame.
Qed.

Lemma root_vault_injected_is_existence_witness :
  exists (d : gmap string PyVal) (w' : World) (b : bool),
    root w_vault = (Return d, w')
    /\ (os_path_exists VAULT_CONFIG w_vault).1 = Return b
    /\ d !! "vault_injected" = Some (PyBool b)
    /\ b = true.
Proof.
  pose proof (root_returns w_vault "python-api-7d9f" eq_refl) as Hrun.
  destruct (proj2 (root_vault_injected_is_existence w_vault) _ _ Hrun)
    as (b & Hcheck & Hfield & _ & Htrue & _).
  eexists _, _, b.
  split; [exact Hrun | split; [exact Hcheck | split; [exact Hfield | ]]].
  apply Htrue. vm_compute. eauto.
Defined.

(** C10, as stated: every request to the root handler gets a response body
    with exactly the four keys.  It fails on a machine whose gethostname
    call fails: [root] returns no dict and the response carries the
    framework's plain-text 500 body. *)
Lemma root_body_absent_when_hostname_fails :
  (serve get_root w_nohost).1
    = Some (mkResponse 500 (PlainText "Internal Server Error"))
  /\ ~ (forall (req : Request) (w : World),
          method req = GET -> path req = "/" ->
          exists (r : Response) (d : gmap string PyVal),
            (serve req w).1 = Some r
            /\ body r = JSONBody d
            /\ dom d = root_keys).
Proof.
  split; [reflexivity | ].
  intros Hall.
  destruct (Hall get_root w_nohost eq_refl eq_refl) as (r & d & Hr & Hbody & _).
  vm_compute in Hr. injection Hr as <-. discriminate Hbody.
Qed.

(** C10, amended: for every request to the root handler during which host
    name resolution succeeds, the response body is the dict [root]
    returns, and it has exactly the four keys service, message, host and
    vault_injected, the first three bound to strings and the last to a
    boolean. *)
Theorem root_body_shape_when_hostname_resolves
    (req : Request) (w : World) (h : string) :
  method req = GET -> path req = "/" -> hostname w = Done h ->
  exists (d : gmap string PyVal) (w' : World),
    root w = (Return d, w')
    /\ (serve req w).1 = Some (mkResponse 200 (JSONBody d))
    /\ dom d = root_keys
    /\ size d = 4%nat
    /\ (forall k, d !! k <> None
                  <-> k ∈ ["service"; "message"; "host"; "vault_injected"])
    /\ is_str <$> d !! "service" = Some true
    /\ is_str <$> d !! "message" = Some true
    /\ is_str <$> d !! "host" = Some true
    /\ is_bool <$> d !! "vault_injected" = Some true.
Proof.
  intros Hm Hp Hh. eexists _, (root_world w).
  split; [apply (root_returns w h Hh) | ].
  split; [now rewrite (serve_root req w Hm Hp), (root_returns w h Hh) | ].
  pose proof (root_dict_dom h (present w VAULT_CONFIG)) as Hdom.
  split; [exact Hdom | ].
  split.
  { rewrite <- size_dom, Hdom. reflexivity. }
  split.
  { intros k. rewrite not_eq_None_Some, <- elem_of_dom, Hdom.
    unfold root_keys. set_unfold. tauto. }
  repeat split.
Qed.

Lemma root_body_shape_when_hostname_resolves_witness :
  exists (d : gmap string PyVal) (w' : World),
    root w_plain = (Return d, w')
    /\ (serve get_root w_plain).1 = Some (mkResponse 200 (JSONBody d))
    /\ dom d = root_keys
    /\ size d = 4%nat.
Proof.
  destruct (root_body_shape_when_hostname_resolves
              get_root w_plain "python-api-7d9f" eq_refl eq_refl eq_refl)
    as (d & w' & Hrun & Hserve & Hdom & Hsize & _).
  exists d, w'.
  split; [exact Hrun | split; [exact Hserve | split; [exact Hdom | exact Hsize]]].
Defined.

(** C3, as stated: every GET request to / is answered 200 with the four
    keys.  It fails on a machine whose gethostname call fails: the OSError
    leaves [root] and the response is a 500 without a JSON body. *)
Lemma root_500_when_hostname_fails :
  (serve get_root w_nohost).1
    = Some (mkResponse 500 (PlainText "Internal Server Error"))
  /\ ~ (forall (req : Request) (w : World),
          method req = GET -> path req = "/" ->
          exists r, (serve req w).1 = Some r /\ root_ok_response r).
Proof.
  split; [reflexivity | ].
  intros Hall.
  destruct (Hall get_root w_nohost eq_refl eq_refl) as (r & Hr & Hstatus & _).
  vm_compute in Hr. injection Hr as <-. discriminate Hstatus.
Qed.

(** C3, amended: every GET request to / during which host name resolution
    succeeds is answered with status 200 and a body that contains the keys
    service, message, host and vault_injected, with service bound to
    python-api and message bound to Hello from Python!. *)
Theorem root_ok_when_hostname_resolves (req : Request) (w : World) (h : string) :
  method req = GET -> path req = "/" -> hostname w = Done h ->
  exists r : Response, (serve req w).1 = Some r /\ root_ok_response r.
Proof.
  intros Hm Hp Hh. rewrite (serve_root req w Hm Hp), (root_returns w h Hh).
  simpl. eexists; split; [reflexivity | ].
  split; [reflexivity | ]. eexists; split; [reflexivity | ].
  split; [now rewrite root_dict_dom | ].
  split; reflexivity.
Qed.

Lemma root_ok_when_hostname_resolves_witness :
  exists r : Response, (serve get_root w_vault).1 = Some r /\ root_ok_response r.
Proof.
  apply (root_ok_when_hostname_resolves get_root w_vault "python-api-7d9f");
    reflexivity.
Defined.

(** C6, as stated: the host field is always a non-empty string.  It fails on
    a machine whose host name is the empty string (gethostname succeeds and
    returns it): [root] passes the value through unchecked. *)
Lemma root_host_empty_on_unnamed_machine :
  (exists w', root w_anon = (Return (<["vault_injected" := PyBool false]>
                                     (<["host" := PyStr EmptyString]>
                                      (<["message" := PyStr "Hello from Python!"]>
                                       (<["service" := PyStr "python-api"]> ∅)))), w'))
  /\ ~ (forall (w : World) (d : gmap string PyVal) (w' : World),
          root w = (Return d, w') ->
          exists s, d !! "host" = Some (PyStr s)
                    /\ s <> EmptyString
                    /\ hostname w = Done s).
Proof.
  split; [eexists; reflexivity | ].
  intros Hall.
  destruct (Hall w_anon _ _ (root_returns w_anon EmptyString eq_refl))
    as (s & Hs & Hne & _).
  rewrite lookup_insert_ne in Hs by discriminate.
  rewrite lookup_insert_eq in Hs. congruence.
Qed.

(** C6, amended: the root handler answers whenever the host name resolves,
    and in every answer the host field is a string equal to the value host
    name resolution returned during the request; the field is non-empty
    whenever that value is. *)
Theorem root_host_is_resolved_name (w : World) :
  (forall h, hostname w = Done h ->
     exists (d : gmap string PyVal) (w' : World), root w = (Return d, w'))
  /\ forall (d : gmap string PyVal) (w' : World),
       root w = (Return d, w') ->
       exists h : string,
         hostname w = Done h
         /\ (socket_gethostname w).1 = Return h
         /\ d !! "host" = Some (PyStr h)
         /\ (h <> EmptyString ->
             exists s, d !! "host" = Some (PyStr s) /\ s <> EmptyString).
Proof.
  split; [apply root_answers | ].
  intros d w' Hrun.
  destruct (root_return_inv w w' d Hrun) as (h & Hh & _ & ->).
  exists h.
  split; [exact Hh | ].
  split; [now rewrite socket_gethostname_run, Hh | ].
  rewrite lookup_insert_ne by discriminate. rewrite lookup_insert_eq.
  split; [reflexivity | eauto].
Qed.

Lemma root_host_is_resolved_name_witness :
  exists (d : gmap string PyVal) (w' : World) (h : string),
    root w_plain = (Return d, w')
    /\ hostname w_plain = Done h
    /\ d !! "host" = Some (PyStr h).
Proof.
  pose proof (root_returns w_plain "python-api-7d9f" eq_refl) as Hrun.
  destruct (proj2 (root_host_is_resolved_name w_plain) _ _ Hrun)
    as (h & Hh & _ & Hfield & _).
  eexists _, _, h. split; [exact Hrun | split; [exact Hh | exact Hfield]].
Defined.

(** ** Determinism *)

Lemma root_same_external (w1 w2 : World) :
  same_external w1 w2 -> (root w1).1 = (root w2).1.
Proof.
  intros [Hfs Hhost]. rewrite !root_run. simpl.
  rewrite Hhost, (present_same w1 w2 _ Hfs). reflexivity.
Qed.

Lemma root_keeps_external (w : World) : same_external w (root w).2.
Proof. rewrite root_run. split; reflexivity. Qed.

Lemma serve_is_endpoint (req : Request) (w : World) :
  method req = GET -> path req = "/" \/ path req = "/health" ->
  exists f : M (gmap string PyVal),
    (f = root \/ f = health)
    /\ forall w0, serve req w0 = (Some (respond (f w0).1), (f w0).2).
Proof.
  intros Hm [Hp | Hp].
  - exists root. split; [now left | ]. intros w0. now apply serve_root.
  - exists health. split; [now right | ]. intros w0. now apply serve_health.
Qed.

(** C4. Two identical GET requests to / or to /health that meet the same
    external state (same entry at the Vault path, same host name
    resolution) get identical responses, whatever else differs between the
    two worlds; serving a request leaves that external state as it was, so
    repeating the request yields the same response again. *)
Theorem serve_deterministic (req : Request) (w1 w2 : World) :
  method req = GET -> path req = "/" \/ path req = "/health" ->
  same_external w1 w2 ->
  is_Some (serve req w1).1
  /\ (serve req w1).1 = (serve req w2).1
  /\ same_external w1 (serve req w1).2
  /\ (serve req (serve req w1).2).1 = (serve req w1).1.
Proof.
  intros Hm Hp Hsame.
  destruct (serve_is_endpoint req w1 Hm Hp) as (f & Hf & Hserve).
  rewrite !Hserve. simpl.
  assert (Hdet : forall a b, same_external a b -> (f a).1 = (f b).1).
  { destruct Hf as [-> | ->]; [apply root_same_external | reflexivity]. }
  assert (Hkeep : same_external w1 (f w1).2).
  { destruct Hf as [-> | ->]; [apply root_keeps_external | split; reflexivity]. }
  split; [eauto | ].
  split; [now rewrite (Hdet w1 w2 Hsame) | ].
  split; [exact Hkeep | ].
  now rewrite <- (Hdet w1 _ Hkeep).
Qed.

Lemma serve_deterministic_witness :
  is_Some (serve get_root w_vault).1
  /\ (serve get_root w_vault).1 = (serve get_root (root_world w_vault)).1
  /\ same_external w_vault (serve get_root w_vault).2
  /\ (serve get_root (serve get_root w_vault).2).1 = (serve get_root w_vault).1.
Proof.
  apply (serve_deterministic get_root w_vault (root_world w_vault)).
  - reflexivity.
  - left; reflexivity.
  - split; reflexivity.
Defined.

(** ** Effects and failures of the root handler *)

(** C7, as stated: every GET request to / makes [root] emit exactly one log
    line.  It fails when the root logger already carried a handler at the
    time [main.py] was imported: [basicConfig] then does nothing, the root
    level stays at WARNING and the INFO call on the module logger is
    dropped. *)
Lemma root_silent_when_root_logger_preconfigured :
  trace (serve get_root w_captured).2 = [EvStat VAULT_CONFIG; EvGetHostName]
  /\ ~ (forall (req : Request) (w : World),
          method req = GET -> path req = "/" ->
          exists post : list Event,
            emitted w (serve req w).2 (EvLog root_log :: post)
            /\ count_logs (EvLog root_log :: post) = 1%nat).
Proof.
  split; [reflexivity | ].
  intros Hall.
  destruct (Hall get_root w_captured eq_refl eq_refl) as (post & Hem & _).
  unfold emitted in Hem. vm_compute in Hem. discriminate Hem.
Qed.

(** C7, amended: while the logging configuration of [main.py] is in effect
    (the root logger had no handler when [basicConfig] ran, the module
    logger and its ancestors are as created, INFO is not disabled),
    serving a GET request to / appends exactly one log record to the
    trace, at level INFO with the message Root endpoint called, and it is
    the first effect: the stat of the Vault path and the gethostname call
    both come after it. *)
Theorem root_logs_once_first_when_configured (req : Request) (w : World) :
  method req = GET -> path req = "/" ->
  main_logging_in_effect (logging w) ->
  exists post : list Event,
    emitted w (serve req w).2 (EvLog root_log :: post)
    /\ levelno root_log = INFO
    /\ levelname (levelno root_log) = "INFO"
    /\ msg root_log = "Root endpoint called"
    /\ count_logs (EvLog root_log :: post) = 1%nat
    /\ post = [EvStat VAULT_CONFIG; EvGetHostName].
Proof.
  intros Hm Hp Hcfg. rewrite (serve_root req w Hm Hp), root_run.
  exists [EvStat VAULT_CONFIG; EvGetHostName].
  pose proof (logged_in_effect _ "Root endpoint called" Hcfg) as Hlog.
  change (mkLogRecord INFO "Root endpoint called") with root_log in Hlog.
  unfold emitted, root_world, root_events. cbn [snd trace].
  rewrite Hlog. repeat split.
Qed.

Lemma production_logging_in_effect : main_logging_in_effect production_logging.
Proof.
  exists fresh_logging. repeat split; solve [reflexivity | constructor].
Qed.

Lemma root_logs_once_first_when_configured_witness :
  exists post : list Event,
    emitted w_nohost (serve get_root w_nohost).2 (EvLog root_log :: post)
    /\ levelno root_log = INFO
    /\ levelname (levelno root_log) = "INFO"
    /\ msg root_log = "Root endpoint called"
    /\ count_logs (EvLog root_log :: post) = 1%nat
    /\ post = [EvStat VAULT_CONFIG; EvGetHostName].
Proof.
  apply (root_logs_once_first_when_configured get_root w_nohost);
    [reflexivity | reflexivity | ].
  exists fresh_logging. repeat split; solve [reflexivity | constructor].
Defined.

(** C8. Nothing in [root] catches what [socket.gethostname] raises: the
    handler raises exactly the exception of the host name call, it raises
    if and only if host name resolution fails, a resolved host name means
    no exception, and an exception reaches the framework as a 500. *)
Theorem root_raises_iff_gethostname_fails (w : World) :
  (forall e, (root w).1 = Raise e <-> (socket_gethostname w).1 = Raise e)
  /\ (raised (root w).1 = true <-> exists n, hostname w = Errno n)
  /\ (forall h, hostname w = Done h -> raised (root w).1 = false)
  /\ (raised (root w).1 = true <-> status_code (respond (root w).1) = 500).
Proof.
  rewrite root_run, socket_gethostname_run. simpl.
  destruct (hostname w) as [h | n]; simpl.
  - split; [intros e; split; discriminate | ].
    split; [split; [discriminate | intros [n Hn]; discriminate] | ].
    split; [reflexivity | split; discriminate].
  - split; [intros e; split; intros He; injection He as <-; reflexivity | ].
    split; [split; eauto | ].
    split; [discriminate | split; reflexivity].
Qed.

Lemma root_raises_iff_gethostname_fails_witness :
  raised (root w_nohost).1 = true /\ raised (root w_plain).1 = false.
Proof.
  split.
  - apply (proj1 (proj2 (root_raises_iff_gethostname_fails w_nohost))).
    exists 14. reflexivity.
  - apply (proj1 (proj2 (proj2 (root_raises_iff_gethostname_fails w_plain)))
             "python-api-7d9f").
    reflexivity.
Defined.

(** C9. The existence check never raises: for every file system and every
    path it returns a boolean; the [ENOENT] that [os.stat] raises for a
    missing Vault file is turned into the answer false; hence every
    exception of [root] is the one of host name resolution, and with a
    resolved host name [root] returns whether or not the file is there. *)
Theorem vault_check_never_raises (w : World) :
  (forall p, exists b w', os_path_exists p w = (Return b, w'))
  /\ (fs w !! VAULT_CONFIG = None ->
        (os_stat VAULT_CONFIG w).1 = Raise (OSError ENOENT)
        /\ (os_path_exists VAULT_CONFIG w).1 = Return false)
  /\ (forall e, (root w).1 = Raise e -> exists n, hostname w = Errno n /\ e = OSError n)
  /\ (forall h, hostname w = Done h -> raised (root w).1 = false).
Proof.
  split.
  { intros p. destruct (os_path_exists_returns w p) as (b & w' & H & _).
    eauto. }
  split.
  { intros Habs.
    rewrite (os_stat_run w _ vault_path_clean).
    rewrite (os_path_exists_run w _ vault_path_clean). simpl.
    now rewrite Habs, (present_None w _ Habs). }
  rewrite root_run. simpl.
  destruct (hostname w) as [h | n]; simpl.
  - split; [discriminate | reflexivity].
  - split; [ | discriminate].
    intros e He. injection He as <-. eauto.
Qed.

Lemma vault_check_never_raises_witness :
  (os_stat VAULT_CONFIG w_plain).1 = Raise (OSError ENOENT)
  /\ (os_path_exists VAULT_CONFIG w_plain).1 = Return false.
Proof.
  apply (proj1 (proj2 (vault_check_never_raises w_plain))). reflexivity.
Defined.

(** ** Routing *)

Lemma hits_root_spec (req : Request) :
  hits_root req = true <-> method req = GET /\ path req = "/".
Proof.
  unfold hits_root. rewrite andb_true_iff, bool_decide_eq_true, String.eqb_eq.
  reflexivity.
Qed.

Lemma hits_health_spec (req : Request) :
  hits_health req = true <-> method req = GET /\ path req = "/health".
Proof.
  unfold hits_health. rewrite andb_true_iff, bool_decide_eq_true, String.eqb_eq.
  reflexivity.
Qed.

Lemma route_matches_root (req : Request) :
  route_matches req (mkRoute GET "/" root) = hits_root req.
Proof.
  unfold route_matches, hits_root. simpl. rewrite String.eqb_sym.
  destruct (method req); reflexivity.
Qed.

Lemma route_matches_health (req : Request) :
  route_matches req (mkRoute GET "/health" health) = hits_health req.
Proof.
  unfold route_matches, hits_health. simpl. rewrite String.eqb_sym.
  destruct (method req); reflexivity.
Qed.

Lemma serve_cases (req : Request) (w : World) :
  serve req w =
    if hits_root req then (Some (respond (root w).1), root_world w)
    else if hits_health req
         then (Some (mkResponse 200 (JSONBody (<["status" := PyStr "healthy"]> ∅))), w)
         else (None, w).
Proof.
  unfold serve, find_route, routes. simpl.
  rewrite route_matches_root, route_matches_health.
  destruct (hits_root req).
  - simpl. rewrite root_run. reflexivity.
  - destruct (hits_health req); reflexivity.
Qed.

(** ** Sequences of requests *)

Lemma serve_world (req : Request) (w : World) :
  (serve req w).2 =
    mkWorld (fs w) (hostname w) (logging w)
            (trace w ++ events_of (logging w) req).
Proof.
  rewrite serve_cases. unfold events_of.
  destruct (hits_root req); [reflexivity | ].
  destruct (hits_health req); simpl; now rewrite world_eta.
Qed.

Lemma serve_response_ext (req : Request) (w1 w2 : World) :
  fs w1 = fs w2 -> hostname w1 = hostname w2 ->
  (serve req w1).1 = (serve req w2).1.
Proof.
  intros Hfs Hhost. rewrite !serve_cases.
  destruct (hits_root req); [ | destruct (hits_health req); reflexivity].
  simpl. f_equal. f_equal. apply root_same_external.
  split; [now rewrite Hfs | exact Hhost].
Qed.

Lemma serve_all_cons (req : Request) (rest : list Request) (w : World) :
  serve_all (req :: rest) w =
    ((serve req w).1 :: (serve_all rest (serve req w).2).1,
     (serve_all rest (serve req w).2).2).
Proof.
  simpl. destruct (serve req w) as [r w1]. simpl.
  now destruct (serve_all rest w1).
Qed.

Lemma count_logs_app (l1 l2 : list Event) :
  count_logs (l1 ++ l2) = (count_logs l1 + count_logs l2)%nat.
Proof. unfold count_logs. now rewrite filter_app, length_app. Qed.

(** X2. Serving never writes: after any sequence of requests, whatever
    their methods and paths, the file system and the host name resolution
    are exactly what they were, and every request got its entry in the
    list of responses. *)
Theorem serve_all_read_only (reqs : list Request) (w : World) :
  fs (serve_all reqs w).2 = fs w
  /\ hostname (serve_all reqs w).2 = hostname w
  /\ length (serve_all reqs w).1 = length reqs.
Proof.
  revert w. induction reqs as [ | req rest IH]; intros w.
  - repeat split.
  - rewrite serve_all_cons. simpl.
    destruct (IH (serve req w).2) as (Hfs & Hhost & Hlen).
    rewrite Hfs, Hhost, Hlen, serve_world. repeat split.
Qed.

Lemma serve_all_emitted (reqs : list Request) (w : World) :
  logging (serve_all reqs w).2 = logging w
  /\ emitted w (serve_all reqs w).2
             (List.concat (List.map (events_of (logging w)) reqs)).
Proof.
  revert w. unfold emitted.
  induction reqs as [ | req rest IH]; intros w.
  - simpl. now rewrite app_nil_r.
  - rewrite serve_all_cons. simpl.
    destruct (IH (serve req w).2) as [Hlog Htrace].
    rewrite Hlog, Htrace, serve_world. simpl.
    split; [reflexivity | now rewrite app_assoc].
Qed.

Lemma count_logs_events (L : Logging) (reqs : list Request) :
  count_logs (List.concat (List.map (events_of L) reqs))
  = (count_logs (root_events L)
     * length (filter (fun req => hits_root req = true) reqs))%nat.
Proof.
  induction reqs as [ | req rest IH].
  - change (0 = count_logs (root_events L) * 0)%nat. lia.
  - simpl. rewrite count_logs_app, IH, filter_cons. unfold events_of.
    destruct (hits_root req) eqn:Hr.
    + rewrite decide_True by reflexivity. rewrite length_cons. lia.
    + rewrite decide_False by discriminate.
      change (count_logs []) with 0%nat. lia.
Qed.

(** X3. For any sequence of GET requests to / and /health served one after
    another, the trace afterwards is the old trace followed, for each GET
    / in order, by the log lines the logging state in force yields for
    one INFO record, then its stat of the Vault path, then its
    gethostname call, and by nothing for a GET /health.  With the logging
    configuration of [main.py] in effect that is exactly one log record
    per GET / request. *)
Theorem serve_all_trace (reqs : list Request) (w : World) :
  Forall routed reqs ->
  emitted w (serve_all reqs w).2
          (List.concat (List.map (events_of (logging w)) reqs))
  /\ (forall req, In req reqs ->
        events_of (logging w) req
        = if String.eqb (path req) "/"
          then (logged (logging w) logger root_log
                ++ [EvStat VAULT_CONFIG; EvGetHostName])%list
          else [])
  /\ (main_logging_in_effect (logging w) ->
      count_logs (List.concat (List.map (events_of (logging w)) reqs))
      = length (filter (fun req => path req = "/") reqs)).
Proof.
  intros Hrouted.
  split; [apply serve_all_emitted | ].
  split.
  - intros req Hin.
    rewrite Forall_forall in Hrouted.
    destruct (Hrouted req (proj2 (list_elem_of_In _ _) Hin)) as [Hm _].
    unfold events_of, hits_root, root_events.
    rewrite bool_decide_eq_true_2 by exact Hm. reflexivity.
  - intros Hcfg. rewrite count_logs_events.
    pose proof (logged_in_effect _ "Root endpoint called" Hcfg) as Hlog.
    change (mkLogRecord INFO "Root endpoint called") with root_log in Hlog.
    unfold root_events. rewrite Hlog.
    change (count_logs ([EvLog root_log] ++ [EvStat VAULT_CONFIG; EvGetHostName]))
      with 1%nat.
    rewrite Nat.mul_1_l. clear Hlog Hcfg.
    induction Hrouted as [ | req rest [Hm _] _ IH]; [reflexivity | ].
    rewrite !filter_cons.
    destruct (decide (path req = "/")) as [Hp | Hp].
    + rewrite decide_True by now apply hits_root_spec.
      rewrite !length_cons, IH. reflexivity.
    + rewrite decide_False; [exact IH | ].
      intros Hr. apply hits_root_spec in Hr as [_ Hr]. contradiction.
Qed.

Lemma serve_all_trace_witness :
  emitted w_plain (serve_all [get_root; get_health; get_root] w_plain).2
          (List.concat (List.map (events_of (logging w_plain))
                                 [get_root; get_health; get_root]))
  /\ count_logs (List.concat (List.map (events_of (logging w_plain))
                                       [get_root; get_health; get_root]))
     = 2%nat.
Proof.
  assert (Hrouted : Forall routed [get_root; get_health; get_root]).
  { repeat (constructor;
            [split; [reflexivity | (left; reflexivity) || (right; reflexivity)] | ]).
    constructor. }
  destruct (serve_all_trace [get_root; get_health; get_root] w_plain Hrouted)
    as (Hem & _ & Hcount).
  split; [exact Hem | ].
  apply Hcount. exact production_logging_in_effect.
Defined.

(** X4. Requests do not influence each other: in a sequence served in
    order, every request gets the response it would get if it were served
    alone in the initial world. *)
Theorem serve_all_isolated (reqs : list Request) (w : World) :
  (serve_all reqs w).1 = List.map (fun req => (serve req w).1) reqs.
Proof.
  revert w. induction reqs as [ | req rest IH]; intros w; [reflexivity | ].
  rewrite serve_all_cons. simpl. f_equal.
  rewrite IH. apply map_ext. intros req'.
  apply serve_response_ext; rewrite serve_world; reflexivity.
Qed.

(** ** The tests of [test_main.py] *)

Lemma root_with_real : root_with os_path_exists = root.
Proof. reflexivity. Qed.

Lemma root_with_patched_run (inner : string -> M bool) (w : World) :
  root_with (vault_side_effect inner) w =
    (match hostname w with
     | Done h =>
         Return (<["vault_injected" := PyBool true]>
                 (<["host" := PyStr h]>
                  (<["message" := PyStr "Hello from Python!"]>
                   (<["service" := PyStr "python-api"]> ∅))))
     | Errno e => Raise (OSError e)
     end, patched_world w).
Proof.
  unfold root_with. unfold bind at 1. rewrite logger_info_run.
  unfold bind at 1. unfold vault_side_effect. simpl.
  unfold ret at 1.
  unfold bind at 1. rewrite socket_gethostname_run.
  unfold patched_world, record_event; simpl.
  rewrite <- !app_assoc; simpl.
  now destruct (hostname w).
Qed.

Lemma client_get_root (w : World) :
  client_get os_path_exists "/" w =
    (Some match hostname w with
          | Done h =>
              Return (mkResponse 200 (JSONBody
                (<["vault_injected" := PyBool (present w VAULT_CONFIG)]>
                 (<["host" := PyStr h]>
                  (<["message" := PyStr "Hello from Python!"]>
                   (<["service" := PyStr "python-api"]> ∅))))))
          | Errno e => Raise (OSError e)
          end, root_world w).
Proof.
  unfold client_get. simpl. rewrite root_with_real, root_run.
  now destruct (hostname w).
Qed.

Lemma client_get_root_patched (inner : string -> M bool) (w : World) :
  client_get (vault_side_effect inner) "/" w =
    (Some match hostname w with
          | Done h =>
              Return (mkResponse 200 (JSONBody
                (<["vault_injected" := PyBool true]>
                 (<["host" := PyStr h]>
                  (<["message" := PyStr "Hello from Python!"]>
                   (<["service" := PyStr "python-api"]> ∅))))))
          | Errno e => Raise (OSError e)
          end, patched_world w).
Proof.
  unfold client_get. simpl. rewrite root_with_patched_run.
  now destruct (hostname w).
Qed.

(** X5. [test_health_endpoint] passes on every machine, whatever its file
    system and whether or not its host name resolves, and leaves the world
    as it found it. *)
Theorem test_health_endpoint_passes (w : World) :
  test_health_endpoint w = (Passed, w).
Proof.
  unfold test_health_endpoint, request, client_get. simpl.
  unfold check, json_body. simpl.
  rewrite bool_decide_eq_true_2 by reflexivity. reflexivity.
Qed.

(** X6. [test_root_returns_service_info] passes exactly when the host name
    of the test machine resolves; when it does not, the test ends with the
    OSError of gethostname, which the test client raises again, and no
    assertion is reached. *)
Theorem test_root_returns_service_info_verdict (w : World) :
  (test_root_returns_service_info w).1 =
    match hostname w with
    | Done _ => Passed
    | Errno n => Errored (AppError (OSError n))
    end.
Proof.
  unfold test_root_returns_service_info, request. rewrite client_get_root.
  destruct (hostname w) as [h | n]; reflexivity.
Qed.

(** X7. [test_root_vault_injected_false_when_missing] depends on the test
    machine: with a resolving host name it passes when
    /vault/secrets/config is absent and fails its assertion when the path
    is present; without one it ends with the OSError of gethostname. *)
Theorem test_root_vault_injected_false_when_missing_verdict (w : World) :
  (test_root_vault_injected_false_when_missing w).1 =
    match hostname w with
    | Done _ => if present w VAULT_CONFIG then Failed else Passed
    | Errno n => Errored (AppError (OSError n))
    end.
Proof.
  unfold test_root_vault_injected_false_when_missing, request.
  rewrite client_get_root.
  destruct (hostname w) as [h | n]; [ | reflexivity].
  destruct (present w VAULT_CONFIG); reflexivity.
Qed.

Lemma calls_app (l1 l2 : list Event) :
  calls (l1 ++ l2) = (calls l1 ++ calls l2)%list.
Proof. unfold calls. apply List.filter_app. Qed.

Lemma calls_log_lines (r : LogRecord) (hs : list Handler) :
  calls (List.map (fun _ => EvLog r) hs) = [].
Proof. induction hs as [ | h rest IH]; [reflexivity | exact IH]. Qed.

Lemma calls_logged (L : Logging) (l : LoggerRef) (r : LogRecord) :
  calls (logged L l r) = [].
Proof.
  unfold logged, logger_log. simpl.
  destruct (isEnabledFor L l (levelno r)); [ | reflexivity].
  unfold handle.
  destruct (disabled (this_logger L l)); [reflexivity | ].
  destruct (logger_filter (this_logger L l) _); [ | reflexivity].
  unfold callHandlers. rewrite emit_all_run. simpl.
  apply calls_log_lines.
Qed.

(** X8. [test_root_vault_injected_true_when_present] passes exactly when
    the host name resolves, whatever the file system holds, wherever the
    temporary directory is and whatever the patched lambda would fall back
    to: the lambda answers for the Vault path itself, so the only call to
    the system during the request is gethostname (no stat), and the only
    change to the file system is the file the test wrote. *)
Theorem test_root_vault_injected_true_when_present_verdict
    (inner : string -> M bool) (tmp_path : string) (w : World) :
  (test_root_vault_injected_true_when_present inner tmp_path w).1 =
    match hostname w with
    | Done _ => Passed
    | Errno n => Errored (AppError (OSError n))
    end
  /\ fs (test_root_vault_injected_true_when_present inner tmp_path w).2
     = <[tmp_path ++ "/config" := RegularFile "key=value"]> (fs w)
  /\ exists evs : list Event,
       emitted w (test_root_vault_injected_true_when_present inner tmp_path w).2 evs
       /\ calls evs = [EvGetHostName].
Proof.
  unfold test_root_vault_injected_true_when_present, request.
  rewrite client_get_root_patched. unfold write_text, patched_world. simpl.
  split; [destruct (hostname w) as [h | n]; reflexivity | ].
  split; [destruct (hostname w) as [h | n]; reflexivity | ].
  exists (logged (logging w) logger root_log ++ [EvGetHostName])%list.
  split; [destruct (hostname w) as [h | n]; reflexivity | ].
  rewrite calls_app, calls_logged. reflexivity.
Qed.

Lemma request_root (k : Response -> Verdict) (w : World) :
  request os_path_exists "/" k w =
    (match hostname w with
     | Done h =>
         k (mkResponse 200 (JSONBody
              (<["vault_injected" := PyBool (present w VAULT_CONFIG)]>
               (<["host" := PyStr h]>
                (<["message" := PyStr "Hello from Python!"]>
                 (<["service" := PyStr "python-api"]> ∅))))))
     | Errno n => Errored (AppError (OSError n))
     end, root_world w).
Proof.
  unfold request. rewrite client_get_root. now destruct (hostname w).
Qed.

Lemma request_root_patched (inner : string -> M bool)
    (k : Response -> Verdict) (w : World) :
  request (vault_side_effect inner) "/" k w =
    (match hostname w with
     | Done h =>
         k (mkResponse 200 (JSONBody
              (<["vault_injected" := PyBool true]>
               (<["host" := PyStr h]>
                (<["message" := PyStr "Hello from Python!"]>
                 (<["service" := PyStr "python-api"]> ∅))))))
     | Errno n => Errored (AppError (OSError n))
     end, patched_world w).
Proof.
  unfold request. rewrite client_get_root_patched. now destruct (hostname w).
Qed.

Lemma request_health (k : Response -> Verdict) (w : World) :
  request os_path_exists "/health" k w =
    (k (mkResponse 200 (JSONBody (<["status" := PyStr "healthy"]> ∅))), w).
Proof. reflexivity. Qed.

Lemma run_suite_verdicts (inner : string -> M bool) (tmp_path : string) (w : World) :
  (run_suite inner tmp_path w).1 =
    match hostname w with
    | Done _ =>
        [Passed; if present w VAULT_CONFIG then Failed else Passed; Passed; Passed]
    | Errno n =>
        [Errored (AppError (OSError n)); Errored (AppError (OSError n));
         Errored (AppError (OSError n)); Passed]
    end.
Proof.
  unfold run_suite, test_root_returns_service_info,
    test_root_vault_injected_false_when_missing,
    test_root_vault_injected_true_when_present, test_health_endpoint.
  rewrite request_root. cbv beta iota.
  rewrite request_root. cbv beta iota.
  rewrite request_root_patched. cbv beta iota.
  rewrite request_health. unfold write_text, present. simpl.
  destruct (hostname w) as [h | n]; [ | reflexivity].
  destruct (fs w !! VAULT_CONFIG); reflexivity.
Qed.

(** X9. The whole test file, run in order, is green exactly on a machine
    whose host name resolves and where /vault/secrets/config is absent;
    the health test passes regardless. *)
Theorem run_suite_green_iff (inner : string -> M bool) (tmp_path : string) (w : World) :
  (Forall (fun v => v = Passed) (run_suite inner tmp_path w).1
   <-> (exists h, hostname w = Done h) /\ fs w !! VAULT_CONFIG = None)
  /\ (run_suite inner tmp_path w).1 !! 3%nat = Some Passed.
Proof.
  rewrite run_suite_verdicts. unfold present.
  destruct (hostname w) as [h | n].
  - split; [ | reflexivity].
    destruct (fs w !! VAULT_CONFIG) as [i | ]; simpl.
    + split.
      * intros Hall. inversion Hall as [ | ? ? _ Hrest]; subst.
        inversion Hrest as [ | ? ? Hbad _]; subst. discriminate Hbad.
      * intros [_ Habs]. discriminate Habs.
    + split; [eauto | ]. intros _. repeat constructor.
  - split; [ | reflexivity]. split.
    + intros Hall. inversion Hall as [ | ? ? Hbad _]; subst. discriminate Hbad.
    + intros [[h Hh] _]. discriminate Hh.
Qed.

Lemma run_suite_green_iff_witness :
  Forall (fun v => v = Passed) (run_suite os_path_exists "/tmp/pytest-0" w_plain).1.
Proof.
  apply (proj1 (run_suite_green_iff os_path_exists "/tmp/pytest-0" w_plain)).
  split; [exists "python-api-7d9f"; reflexivity | reflexivity].
Defined.
